(** * The book registry of [app.js]: an Express CRUD service over an in-memory array

    The handlers of [app.js] are embedded as pure functions from the current
    contents of the global array [books] (and the request data) to the HTTP
    response and the next contents of [books].  Request bodies are the objects
    that [express.json()] parses, so a field can be absent ([undefined]) or hold
    any JSON value; the JavaScript operators [!x] and [x || y] are embedded
    through [truthy].  A body is a finite map from keys to values (the empty
    map for [{}]), and the id of a route is the string Express puts in
    [req.params]; the route ['/books/:id'] never matches an empty id, so
    statements that send a generated id back to the service assume it is not
    empty.  The handlers are modelled from the point where [req.body] is an
    object; what Express does with a request whose body was not parsed is
    outside the model.  [Math.random()] is an input of the model: a creation
    request carries the radix-36 rendering of the number it returned. *)

Set Warnings "-register-all".
From Stdlib Require Import Floats.PrimFloat.
From stdpp Require Import base option list strings gmap.


(** ** JavaScript values *)

(** The values a field of a parsed JSON body can hold, plus [undefined] for a
    field that is absent.  Numbers are IEEE doubles, as in JavaScript. *)
Inductive value : Type :=
  | VUndefined
  | VNull
  | VBool (b : bool)
  | VNum (x : float)
  | VStr (s : string)
  | VArr (elements : list value)
  | VObj (fields : list (string * value)).

(** ToBoolean: [undefined], [null], [false], [0], [-0], [NaN] and the empty
    string are falsy; everything else (objects and arrays included) is truthy. *)
Definition truthy (v : value) : bool :=
  match v with
  | VUndefined => false
  | VNull => false
  | VBool b => b
  | VNum x => negb (PrimFloat.eqb x 0%float || PrimFloat.is_nan x)
  | VStr s => negb (String.eqb s "")
  | VArr _ => true
  | VObj _ => true
  end.

(** [a || b] *)
Definition js_or (a b : value) : value := if truthy a then a else b.

(** [const { k } = obj]: the property [k] of a parsed body, [undefined] when
    the body has no such key. *)
Definition prop (k : string) (obj : gmap string value) : value :=
  default VUndefined (obj !! k).

(** ** The data store *)

Record Book : Type := mkBook { id : string; title : value; author : value }.

(** The initial contents of [let books = [...]]. *)
Definition seed_books : list Book :=
  [ mkBook "1" (VStr "The Hitchhiker's Guide to the Galaxy") (VStr "Douglas Adams");
    mkBook "2" (VStr "Pride and Prejudice") (VStr "Jane Austen");
    mkBook "3" (VStr "1984") (VStr "George Orwell") ].

(** [generateUniqueId]: [Math.random().toString(36).substr(2, 9)].  The
    argument [r36] is the radix-36 rendering of the number [Math.random()]
    returned (a string such as ["0.k3j59x1ab2c"]); the function keeps at most
    nine characters from position two on. *)
Definition generateUniqueId (r36 : string) : string := String.substring 2 9 r36.

(** ** Responses *)

Inductive Payload : Type :=
  | JsonBook (b : Book)
  | JsonBooks (bs : list Book)
  | JsonMessage (message : string).

(** [payload = None] is an empty body, as sent by [res.status(204).send()]. *)
Record Response : Type := mkResponse { status : nat; payload : option Payload }.

(** [res.status(code).json(p)]; [res.json(p)] is [json 200 p]. *)
Definition json (code : nat) (p : Payload) : Response := mkResponse code (Some p).

Definition not_found : Response := json 404 (JsonMessage "Book not found").

(** What Express answers when a handler throws.  On a parsed body the one
    place where a handler could throw is the array access of [PUT], and that
    index is always in range (see [put_book_never_throws]). *)
Definition uncaught : Response := mkResponse 500 None.

(** ** The handlers *)

(** [books.find(b => b.id === i)] *)
Definition find_book (i : string) (books : list Book) : option Book :=
  snd <$> list_find (λ b, id b = i) books.

(** [books.findIndex(b => b.id === i)], with [None] for [-1]. *)
Definition findIndex_book (i : string) (books : list Book) : option nat :=
  fst <$> list_find (λ b, id b = i) books.

(** [app.get('/books', ...)] *)
Definition get_books (books : list Book) : Response * list Book :=
  (json 200 (JsonBooks books), books).

(** [app.get('/books/:id', ...)] *)
Definition get_book (i : string) (books : list Book) : Response * list Book :=
  match find_book i books with
  | Some book => (json 200 (JsonBook book), books)
  | None => (not_found, books)
  end.

(** [app.post('/books', ...)] *)
Definition post_book (r36 : string) (body : gmap string value) (books : list Book)
  : Response * list Book :=
  let title := prop "title" body in
  let author := prop "author" body in
  if negb (truthy title) || negb (truthy author) then
    (json 400 (JsonMessage "Title and Author are required"), books)
  else
    let newBook := mkBook (generateUniqueId r36) title author in
    (json 201 (JsonBook newBook), books ++ [newBook]).

(** [books[bookIndex].title = title || books[bookIndex].title] *)
Definition assign_title (t : value) (b : Book) : Book :=
  mkBook (id b) (js_or t (title b)) (author b).

(** [books[bookIndex].author = author || books[bookIndex].author] *)
Definition assign_author (a : value) (b : Book) : Book :=
  mkBook (id b) (title b) (js_or a (author b)).

(** [app.put('/books/:id', ...)] *)
Definition put_book (i : string) (body : gmap string value) (books : list Book)
  : Response * list Book :=
  let title := prop "title" body in
  let author := prop "author" body in
  match findIndex_book i books with
  | Some bookIndex =>
      let books1 := alter (assign_title title) bookIndex books in
      let books2 := alter (assign_author author) bookIndex books1 in
      match books2 !! bookIndex with
      | Some book => (json 200 (JsonBook book), books2)
      | None => (uncaught, books2)
      end
  | None => (not_found, books)
  end.

(** [app.delete('/books/:id', ...)] *)
Definition delete_book (i : string) (books : list Book) : Response * list Book :=
  let initialLength := length books in
  let books' := filter (λ book, id book ≠ i) books in
  if bool_decide (length books' < initialLength) then
    (mkResponse 204 None, books')
  else
    (not_found, books').

(** ** Requests and runs of the service *)

Inductive Request : Type :=
  | GET_books
  | GET_book (i : string)
  | POST_books (r36 : string) (body : gmap string value)
  | PUT_book (i : string) (body : gmap string value)
  | DELETE_book (i : string).

Definition handle (req : Request) (books : list Book) : Response * list Book :=
  match req with
  | GET_books => get_books books
  | GET_book i => get_book i books
  | POST_books r36 body => post_book r36 body books
  | PUT_book i body => put_book i body books
  | DELETE_book i => delete_book i books
  end.

(** The store after serving [reqs] one after the other, starting from [books]. *)
Definition run (reqs : list Request) (books : list Book) : list Book :=
  foldl (λ bs req, (handle req bs).2) books reqs.

Definition reachable (books : list Book) : Prop :=
  ∃ reqs, books = run reqs seed_books.

(** The body [{ "title": t, "author": a }]. *)
Definition book_body (t a : value) : gmap string value :=
  {[ "title" := t; "author" := a ]}.


(** The ids stored, in registry order. *)
Definition ids (books : list Book) : list string := id <$> books.

(** A field of a request that is omitted or the empty string. *)
Definition empty_or_absent (v : value) : Prop := v = VUndefined ∨ v = VStr "".

(** The record [PUT /books/:id] leaves in place of [old]: both assignments of
    the handler applied in order. *)
Definition updated (body : gmap string value) (old : Book) : Book :=
  assign_author (prop "author" body) (assign_title (prop "title" body) old).

(** ** Predicates on registries and runs *)

(** A stored record whose title and author are both truthy.  For a string
    that is: not empty (see [truthy_VStr]); an empty array or an empty object
    is truthy too. *)
Definition fields_truthy (b : Book) : Prop :=
  truthy (title b) = true ∧ truthy (author b) = true.

(** Serving [req] on [books] does not make the generator repeat an id of the
    registry.  Only a [POST /books] that passes validation calls
    [generateUniqueId]. *)
Definition fresh_step (req : Request) (books : list Book) : Prop :=
  match req with
  | POST_books r36 body =>
      status (post_book r36 body books).1 = 201 →
      generateUniqueId r36 ∉ ids books
  | _ => True
  end.

(** [fresh_step] at every request of a run. *)
Fixpoint fresh_run (reqs : list Request) (books : list Book) : Prop :=
  match reqs with
  | [] => True
  | req :: reqs' => fresh_step req books ∧ fresh_run reqs' (handle req books).2
  end.

(** ** Sample data *)

(** The requests of the scenario on the seed registry: a creation, an update
    of the title of book 2, the deletion of book 3. *)
Definition scenario : list Request :=
  [ POST_books "0.4fzyo82mv" (book_body (VStr "Dune") (VStr "Herbert"));
    PUT_book "2" {[ "title" := VStr "P&P Rev." ]};
    DELETE_book "3" ].

(** Two creations for which [Math.random()] returned the same number. *)
Definition first_create : Request :=
  POST_books "0.k3j59x1ab" (book_body (VStr "Dune") (VStr "Frank Herbert")).

Definition second_create : Request :=
  POST_books "0.k3j59x1ab" (book_body (VStr "Emma") (VStr "Jane Austen")).

Definition collision_books : list Book :=
  run [first_create; second_create] seed_books.

(** ** Classifying requests and answers *)

(** The two routes whose handlers only read [books]. *)
Definition is_read (req : Request) : bool :=
  match req with
  | GET_books | GET_book _ => true
  | _ => false
  end.

(** The requests of a run that are not reads. *)
Definition writes (reqs : list Request) : list Request :=
  filter (λ req, is_read req = false) reqs.

(** The status codes the handlers of [app.js] set. *)
Definition app_statuses : list nat := [200; 201; 204; 400; 404].

(** * Properties *)

(** ** Truthiness of request fields *)

Lemma truthy_VStr s : truthy (VStr s) = true ↔ s ≠ "".
Proof.
  simpl. rewrite negb_true_iff. split.
  - intros H ->. discriminate.
  - intros H. apply String.eqb_neq. exact H.
Qed.

Lemma empty_or_absent_falsy v : empty_or_absent v → truthy v = false.
Proof. by intros [-> | ->]. Qed.

Lemma truthy_not_empty v : truthy v = true → v ≠ VStr "" ∧ v ≠ VUndefined.
Proof. split; intros ->; discriminate. Qed.

Lemma js_or_truthy a b : truthy a = true → js_or a b = a.
Proof. unfold js_or. by intros ->. Qed.

Lemma js_or_falsy a b : truthy a = false → js_or a b = b.
Proof. unfold js_or. by intros ->. Qed.

Lemma js_or_preserves_truthy a b : truthy b = true → truthy (js_or a b) = true.
Proof. unfold js_or. by destruct (truthy a) eqn:Ha. Qed.

(** ** [find] and [findIndex] on the store *)

Section Find.
Implicit Types (i : string) (b : Book) (books : list Book).

Lemma elem_of_ids i books : i ∈ ids books ↔ ∃ b, b ∈ books ∧ id b = i.
Proof.
  unfold ids. rewrite list_elem_of_fmap. split.
  - intros (b & -> & Hb). eauto.
  - intros (b & Hb & <-). eauto.
Qed.

Lemma list_find_id_None i books :
  list_find (λ b, id b = i) books = None ↔ i ∉ ids books.
Proof.
  rewrite list_find_None, Forall_forall, elem_of_ids. split.
  - intros H (b & Hb & Hi). by apply (H b).
  - intros H b Hb Hi. apply H. eauto.
Qed.

Lemma list_find_id_is_Some i books :
  i ∈ ids books → ∃ n b, list_find (λ b, id b = i) books = Some (n, b).
Proof.
  intros Hi. destruct (list_find (λ b, id b = i) books) as [[n b]|] eqn:E.
  - eauto.
  - by apply list_find_id_None in E.
Qed.

(** The match that [find] and [findIndex] report is the first one. *)
Lemma list_find_id_first l1 b l2 :
  Forall (λ x, id x ≠ id b) l1 →
  list_find (λ x, id x = id b) (l1 ++ b :: l2) = Some (length l1, b).
Proof.
  intros Hl1. apply list_find_Some. split_and!.
  - by rewrite list_lookup_middle.
  - done.
  - intros j y Hj Hlt. rewrite lookup_app_l in Hj by done.
    rewrite Forall_forall in Hl1. apply Hl1.
    by eapply list_elem_of_lookup_2.
Qed.

Lemma find_book_None i books : find_book i books = None ↔ i ∉ ids books.
Proof. unfold find_book. by rewrite fmap_None, list_find_id_None. Qed.

Lemma find_book_Some i books b :
  find_book i books = Some b → b ∈ books ∧ id b = i.
Proof.
  unfold find_book. intros ([n b'] & E & ->)%fmap_Some.
  apply list_find_Some in E as (Hn & Hi & _). split; [|done].
  by eapply list_elem_of_lookup_2.
Qed.

Lemma findIndex_book_None i books : findIndex_book i books = None ↔ i ∉ ids books.
Proof. unfold findIndex_book. by rewrite fmap_None, list_find_id_None. Qed.
End Find.

(** ** Get *)

(** C7: [GET /books/:id] answers 200 with a stored book whose id is the
    argument when one exists, answers 404 with the JSON message exactly when
    no stored book has that id, and leaves the registry as it was. *)
Theorem get_book_spec (i : string) (books : list Book) :
  (get_book i books).2 = books
  ∧ (i ∈ ids books →
     ∃ b, b ∈ books ∧ id b = i ∧ (get_book i books).1 = json 200 (JsonBook b))
  ∧ (i ∉ ids books →
     (get_book i books).1 = json 404 (JsonMessage "Book not found"))
  ∧ (status (get_book i books).1 = 404 ↔ i ∉ ids books).
Proof.
  unfold get_book.
  destruct (find_book i books) as [b|] eqn:E; simpl.
  - apply find_book_Some in E as [Hb Hi].
    assert (i ∈ ids books) by (apply elem_of_ids; eauto).
    split_and!; [done | eauto | done | split; [discriminate | done]].
  - apply find_book_None in E. split_and!; [done | done | done | done].
Qed.

(** ** Create *)

Section Create.
Implicit Types (body : gmap string value) (books : list Book).
Variable r36 : string.

Lemma post_book_reject body books :
  truthy (prop "title" body) = false ∨ truthy (prop "author" body) = false →
  post_book r36 body books
  = (json 400 (JsonMessage "Title and Author are required"), books).
Proof. unfold post_book. by intros [-> | ->]; rewrite ?orb_true_r. Qed.

Lemma post_book_accept body books :
  truthy (prop "title" body) = true → truthy (prop "author" body) = true →
  post_book r36 body books
  = (json 201 (JsonBook (mkBook (generateUniqueId r36)
                           (prop "title" body) (prop "author" body))),
     books ++ [mkBook (generateUniqueId r36)
                 (prop "title" body) (prop "author" body)]).
Proof. unfold post_book. by intros -> ->. Qed.

Lemma post_book_status body books :
  status (post_book r36 body books).1 = 201
  ↔ truthy (prop "title" body) = true ∧ truthy (prop "author" body) = true.
Proof.
  unfold post_book.
  destruct (truthy (prop "title" body)), (truthy (prop "author" body));
    simpl; split; (done || by intros []).
Qed.

Lemma prop_book_body_title t a : prop "title" (book_body t a) = t.
Proof. unfold prop, book_body. by rewrite lookup_insert_eq. Qed.

Lemma prop_book_body_author t a : prop "author" (book_body t a) = a.
Proof.
  unfold prop, book_body.
  rewrite lookup_insert_ne by done. by rewrite lookup_singleton_eq.
Qed.
End Create.

(** C4: when the title or the author of the request is the empty string or
    is absent, [POST /books] answers 400 with a JSON message and the registry
    is the one it was, so it has not grown. *)
Theorem post_book_invalid_input
    (r36 : string) (body : gmap string value) (books : list Book) :
  empty_or_absent (prop "title" body) ∨ empty_or_absent (prop "author" body) →
  post_book r36 body books
  = (json 400 (JsonMessage "Title and Author are required"), books)
  ∧ length (post_book r36 body books).2 = length books.
Proof.
  intros H.
  rewrite post_book_reject; [done|].
  destruct H as [H | H]; [left | right]; by apply empty_or_absent_falsy.
Qed.

Lemma post_book_invalid_input_witness :
  post_book "0.4fzyo82mv" {[ "title" := VStr ""; "author" := VStr "Herbert" ]}
    seed_books
  = (json 400 (JsonMessage "Title and Author are required"), seed_books)
  ∧ length (post_book "0.4fzyo82mv"
              {[ "title" := VStr ""; "author" := VStr "Herbert" ]} seed_books).2
    = length seed_books.
Proof.
  apply post_book_invalid_input.
  left. right. reflexivity.
Defined.

(** For a non-empty title and a non-empty author, [POST /books] answers 201
    with the new book, which carries the id the generator produced and the
    given title and author; the registry is the old one followed by that
    book, so it is one longer and every record it held is where it was.
    Nothing makes the id differ from the ids stored. *)
Theorem post_book_appends
    (r36 : string) (body : gmap string value) (books : list Book) (t a : string) :
  prop "title" body = VStr t → prop "author" body = VStr a →
  t ≠ "" → a ≠ "" →
  post_book r36 body books
  = (json 201 (JsonBook (mkBook (generateUniqueId r36) (VStr t) (VStr a))),
     books ++ [mkBook (generateUniqueId r36) (VStr t) (VStr a)])
  ∧ length (post_book r36 body books).2 = S (length books)
  ∧ (∀ n b, books !! n = Some b → (post_book r36 body books).2 !! n = Some b)
  ∧ (post_book r36 body books).2 !! length books
    = Some (mkBook (generateUniqueId r36) (VStr t) (VStr a)).
Proof.
  intros Ht Ha Hne_t Hne_a.
  rewrite post_book_accept; rewrite ?Ht, ?Ha; try by apply truthy_VStr.
  simpl. split_and!.
  - done.
  - rewrite length_app. simpl. lia.
  - intros n b Hn. by apply lookup_app_l_Some.
  - by rewrite list_lookup_middle.
Qed.

Lemma post_book_appends_witness :
  post_book "0.4fzyo82mv" (book_body (VStr "Dune") (VStr "Herbert")) seed_books
  = (json 201 (JsonBook (mkBook "4fzyo82mv" (VStr "Dune") (VStr "Herbert"))),
     seed_books ++ [mkBook "4fzyo82mv" (VStr "Dune") (VStr "Herbert")])
  ∧ length (post_book "0.4fzyo82mv"
              (book_body (VStr "Dune") (VStr "Herbert")) seed_books).2 = 4.
Proof.
  destruct (post_book_appends "0.4fzyo82mv"
              (book_body (VStr "Dune") (VStr "Herbert")) seed_books
              "Dune" "Herbert") as (H1 & H2 & _).
  - reflexivity.
  - reflexivity.
  - discriminate.
  - discriminate.
  - split; [exact H1 | exact H2].
Defined.

(** ** Update *)

Section Update.
Implicit Types (i : string) (body : gmap string value) (books : list Book).

Lemma updated_id body old : id (updated body old) = id old.
Proof. done. Qed.

Lemma updated_title body old :
  title (updated body old) = js_or (prop "title" body) (title old).
Proof. done. Qed.

Lemma updated_author body old :
  author (updated body old) = js_or (prop "author" body) (author old).
Proof. done. Qed.

(** The two in-place assignments amount to replacing the matched record. *)
Lemma put_book_found i body books n old :
  list_find (λ b, id b = i) books = Some (n, old) →
  put_book i body books
  = (json 200 (JsonBook (updated body old)), <[n := updated body old]> books).
Proof.
  intros E. unfold put_book, findIndex_book. rewrite E. simpl.
  apply list_find_Some in E as (Hn & _ & _).
  rewrite list_alter_alter_eq, list_lookup_alter_eq, Hn. simpl.
  do 2 f_equal. rewrite list_insert_alter.
  apply list_alter_ext; [|done]. intros x Hx. by simplify_eq.
Qed.

Lemma put_book_missing i body books :
  i ∉ ids books → put_book i body books = (not_found, books).
Proof.
  intros Hi. unfold put_book.
  by apply findIndex_book_None in Hi as ->.
Qed.

(** The handler never dereferences an index outside the array. *)
Lemma put_book_never_throws i body books :
  (put_book i body books).1 ≠ uncaught.
Proof.
  destruct (decide (i ∈ ids books)) as [Hi | Hi].
  - apply list_find_id_is_Some in Hi as (n & old & E).
    by rewrite (put_book_found _ _ _ _ _ E).
  - by rewrite put_book_missing.
Qed.

Lemma put_book_status i body books :
  status (put_book i body books).1 = 200 ↔ i ∈ ids books.
Proof.
  destruct (decide (i ∈ ids books)) as [Hi | Hi].
  - destruct (list_find_id_is_Some _ _ Hi) as (n & old & E).
    by rewrite (put_book_found _ _ _ _ _ E).
  - rewrite put_book_missing by done. simpl. split; [discriminate | done].
Qed.
End Update.

(** C2: [PUT /books/:id] answers 404 and changes nothing when no record has
    the id.  Otherwise it answers 200 with the updated record, which replaces
    the first record with that id: a title (author) given as a non-empty
    string is the new title (author), and a title (author) that is omitted or
    the empty string leaves the stored one; so an update that gives only a
    title keeps the stored author. *)
Theorem put_book_spec (i : string) (body : gmap string value) (books : list Book) :
  (i ∉ ids books →
   put_book i body books = (json 404 (JsonMessage "Book not found"), books))
  ∧ (i ∈ ids books →
     ∃ n old new,
       books !! n = Some old ∧ id old = i
       ∧ (∀ m b, books !! m = Some b → m < n → id b ≠ i)
       ∧ put_book i body books = (json 200 (JsonBook new), <[n := new]> books)
       ∧ id new = i
       ∧ (∀ s, prop "title" body = VStr s → s ≠ "" → title new = VStr s)
       ∧ (∀ s, prop "author" body = VStr s → s ≠ "" → author new = VStr s)
       ∧ (empty_or_absent (prop "title" body) → title new = title old)
       ∧ (empty_or_absent (prop "author" body) → author new = author old)
       ∧ (∀ s, prop "title" body = VStr s → s ≠ "" →
          prop "author" body = VUndefined →
          new = mkBook i (VStr s) (author old))).
Proof.
  split.
  - apply put_book_missing.
  - intros Hi. apply list_find_id_is_Some in Hi as (n & old & E).
    exists n, old, (updated body old).
    rewrite (put_book_found _ _ _ _ _ E).
    apply list_find_Some in E as (Hn & Hid & Hfirst).
    split_and!; try done.
    + intros s Hs Hne. rewrite updated_title, Hs.
      by apply js_or_truthy, truthy_VStr.
    + intros s Hs Hne. rewrite updated_author, Hs.
      by apply js_or_truthy, truthy_VStr.
    + intros H. rewrite updated_title.
      by apply js_or_falsy, empty_or_absent_falsy.
    + intros H. rewrite updated_author.
      by apply js_or_falsy, empty_or_absent_falsy.
    + intros s Hs Hne Ha. unfold updated, assign_author, assign_title. simpl.
      rewrite Hs, Ha, Hid. f_equal. by apply js_or_truthy, truthy_VStr.
Qed.

(** C9: when [PUT /books/:id] answers 200, exactly one position of the
    registry is rewritten: the first one whose record has the id of the
    request.  The record there keeps its id and takes the title and author
    the two assignments give it; the length, the sequence of ids and every
    other position are as before. *)
Theorem put_book_frame (i : string) (body : gmap string value) (books : list Book) :
  status (put_book i body books).1 = 200 →
  ∃ n old new,
    books !! n = Some old
    ∧ id old = i
    ∧ (∀ m b, books !! m = Some b → m < n → id b ≠ i)
    ∧ (put_book i body books).2 = <[n := new]> books
    ∧ (put_book i body books).2 !! n = Some new
    ∧ id new = id old
    ∧ title new = js_or (prop "title" body) (title old)
    ∧ author new = js_or (prop "author" body) (author old)
    ∧ length (put_book i body books).2 = length books
    ∧ ids (put_book i body books).2 = ids books
    ∧ (∀ m, m ≠ n → (put_book i body books).2 !! m = books !! m).
Proof.
  intros (n & old & E)%put_book_status%list_find_id_is_Some.
  exists n, old, (updated body old).
  rewrite (put_book_found _ _ _ _ _ E). simpl.
  apply list_find_Some in E as (Hn & Hid & Hfirst).
  assert (n < length books) by by eapply lookup_lt_Some.
  split_and!.
  - done.
  - done.
  - intros m b Hm Hlt. by apply (Hfirst m b).
  - done.
  - by apply list_lookup_insert_eq.
  - done.
  - done.
  - done.
  - apply length_insert.
  - unfold ids. rewrite list_fmap_insert, updated_id.
    apply list_insert_id. by rewrite list_lookup_fmap, Hn.
  - intros m Hm. by apply list_lookup_insert_ne.
Qed.

Lemma put_book_frame_witness :
  ∃ n old new,
    seed_books !! n = Some old
    ∧ id old = "2"
    ∧ (∀ m b, seed_books !! m = Some b → m < n → id b ≠ "2")
    ∧ (put_book "2" {[ "title" := VStr "P&P Rev." ]} seed_books).2
      = <[n := new]> seed_books
    ∧ (put_book "2" {[ "title" := VStr "P&P Rev." ]} seed_books).2 !! n = Some new
    ∧ id new = id old
    ∧ title new = js_or (prop "title" {[ "title" := VStr "P&P Rev." ]}) (title old)
    ∧ author new = js_or (prop "author" {[ "title" := VStr "P&P Rev." ]}) (author old)
    ∧ length (put_book "2" {[ "title" := VStr "P&P Rev." ]} seed_books).2
      = length seed_books
    ∧ ids (put_book "2" {[ "title" := VStr "P&P Rev." ]} seed_books).2
      = ids seed_books
    ∧ (∀ m, m ≠ n →
       (put_book "2" {[ "title" := VStr "P&P Rev." ]} seed_books).2 !! m
       = seed_books !! m).
Proof.
  apply (put_book_frame "2" {[ "title" := VStr "P&P Rev." ]} seed_books).
  reflexivity.
Defined.

(** ** Delete *)

Section Delete.
Implicit Types (i : string) (books : list Book).

Lemma filter_keeps_all i books :
  i ∉ ids books → filter (λ b, id b ≠ i) books = books.
Proof.
  induction books as [|b books IH]; [done|].
  unfold ids. rewrite fmap_cons, not_elem_of_cons. intros [Hb Hi].
  rewrite filter_cons_True by done. f_equal. by apply IH.
Qed.

Lemma ids_filter i books :
  ids (filter (λ b, id b ≠ i) books) = filter (λ x, x ≠ i) (ids books).
Proof.
  induction books as [|b books IH]; [done|].
  unfold ids in *. rewrite fmap_cons, !filter_cons.
  destruct (decide (id b ≠ i)); [|done].
  by rewrite fmap_cons, IH.
Qed.

Lemma ids_filter_without i books : i ∉ ids (filter (λ b, id b ≠ i) books).
Proof. rewrite ids_filter, list_elem_of_filter. by intros [? _]. Qed.




Lemma delete_book_store i books :
  (delete_book i books).2 = filter (λ b, id b ≠ i) books.
Proof. unfold delete_book. by case_bool_decide. Qed.

Lemma delete_book_missing i books :
  i ∉ ids books → delete_book i books = (not_found, books).
Proof.
  intros Hi. unfold delete_book. rewrite filter_keeps_all by done.
  rewrite bool_decide_eq_false_2 by lia. done.
Qed.

Lemma delete_book_found i books :
  i ∈ ids books →
  delete_book i books = (mkResponse 204 None, filter (λ b, id b ≠ i) books).
Proof.
  intros (b & Hb & Hi)%elem_of_ids. unfold delete_book.
  rewrite bool_decide_eq_true_2; [done|].
  apply (length_filter_lt _ _ b); [done|]. by intros ?.
Qed.

Lemma delete_book_status i books :
  status (delete_book i books).1 = 204 ↔ i ∈ ids books.
Proof.
  destruct (decide (i ∈ ids books)) as [Hi | Hi].
  - by rewrite delete_book_found.
  - rewrite delete_book_missing by done. simpl. split; [discriminate | done].
Qed.
End Delete.

(** C6: once [DELETE /books/:id] has answered 204, [GET /books/:id] with the
    same id answers 404 on the registry the deletion left. *)
Theorem delete_then_get_not_found (i : string) (books : list Book) :
  status (delete_book i books).1 = 204 →
  get_book i (delete_book i books).2
  = (json 404 (JsonMessage "Book not found"), (delete_book i books).2).
Proof.
  intros _. rewrite delete_book_store. unfold get_book.
  by rewrite (proj2 (find_book_None _ _) (ids_filter_without i books)).
Qed.

Lemma delete_then_get_not_found_witness :
  get_book "3" (delete_book "3" seed_books).2
  = (json 404 (JsonMessage "Book not found"), (delete_book "3" seed_books).2).
Proof.
  apply (delete_then_get_not_found "3" seed_books).
  reflexivity.
Defined.


(** ** Registries in which an id occurs more than once *)

Section FirstMatch.
Implicit Types (i : string) (b : Book) (books front back : list Book).

Lemma not_in_ids_Forall i books :
  i ∉ ids books ↔ Forall (λ x, id x ≠ i) books.
Proof.
  rewrite Forall_forall, elem_of_ids. split.
  - intros H x Hx Hi. apply H. eauto.
  - intros H (x & Hx & Hi). by apply (H x).
Qed.

Lemma get_book_first front b back :
  id b ∉ ids front →
  get_book (id b) (front ++ b :: back) = (json 200 (JsonBook b), front ++ b :: back).
Proof.
  intros H%not_in_ids_Forall. unfold get_book, find_book.
  by rewrite list_find_id_first.
Qed.

Lemma put_book_first body front b back :
  id b ∉ ids front →
  put_book (id b) body (front ++ b :: back)
  = (json 200 (JsonBook (updated body b)), front ++ updated body b :: back).
Proof.
  intros H%not_in_ids_Forall.
  rewrite (put_book_found _ _ _ (length front) b) by by apply list_find_id_first.
  f_equal. rewrite insert_app_r_alt by done. by rewrite Nat.sub_diag.
Qed.

Lemma delete_book_first front b back :
  id b ∉ ids front →
  (delete_book (id b) (front ++ b :: back)).2
  = front ++ filter (λ x, id x ≠ id b) back.
Proof.
  intros H. rewrite delete_book_store, filter_app, filter_keeps_all by done.
  f_equal. apply filter_cons_False. by intros ?.
Qed.
End FirstMatch.

(** C10: in a registry [l1 ++ b :: l2] whose first record with id [id b] is
    [b], whatever other records with that id [l2] holds: [DELETE] removes
    every record with the id (so two or more when [l2] has one), [GET]
    answers with [b], and [PUT] rewrites [b] alone, leaving [l1] and [l2]. *)
Theorem duplicate_ids_behaviour
    (body : gmap string value) (l1 : list Book) (b : Book) (l2 : list Book) :
  id b ∉ ids l1 →
  (delete_book (id b) (l1 ++ b :: l2)).2 = l1 ++ filter (λ x, id x ≠ id b) l2
  ∧ (∀ x, x ∈ (delete_book (id b) (l1 ++ b :: l2)).2 → id x ≠ id b)
  ∧ (id b ∈ ids l2 →
     length (delete_book (id b) (l1 ++ b :: l2)).2 + 2 ≤ length (l1 ++ b :: l2))
  ∧ get_book (id b) (l1 ++ b :: l2) = (json 200 (JsonBook b), l1 ++ b :: l2)
  ∧ put_book (id b) body (l1 ++ b :: l2)
    = (json 200 (JsonBook (updated body b)), l1 ++ updated body b :: l2).
Proof.
  intros Hl1. split_and!.
  - by apply delete_book_first.
  - intros x. rewrite delete_book_store, list_elem_of_filter. by intros [? _].
  - intros (x & Hx & Hi)%elem_of_ids.
    rewrite delete_book_first, !length_app by done. simpl.
    assert (length (filter (λ x, id x ≠ id b) l2) < length l2); [|lia].
    apply (length_filter_lt _ _ x); [done|]. by intros ?.
  - by apply get_book_first.
  - by apply put_book_first.
Qed.

Lemma duplicate_ids_behaviour_witness :
  (delete_book "k3j59x1ab" collision_books).2 = seed_books
  ∧ length collision_books = 5
  ∧ get_book "k3j59x1ab" collision_books
    = (json 200 (JsonBook (mkBook "k3j59x1ab" (VStr "Dune") (VStr "Frank Herbert"))),
       collision_books)
  ∧ put_book "k3j59x1ab" {[ "title" := VStr "Dune Messiah" ]} collision_books
    = (json 200 (JsonBook (mkBook "k3j59x1ab"
                             (VStr "Dune Messiah") (VStr "Frank Herbert"))),
       seed_books
       ++ [ mkBook "k3j59x1ab" (VStr "Dune Messiah") (VStr "Frank Herbert");
            mkBook "k3j59x1ab" (VStr "Emma") (VStr "Jane Austen") ]).
Proof.
  destruct (duplicate_ids_behaviour {[ "title" := VStr "Dune Messiah" ]}
              seed_books
              (mkBook "k3j59x1ab" (VStr "Dune") (VStr "Frank Herbert"))
              [mkBook "k3j59x1ab" (VStr "Emma") (VStr "Jane Austen")])
    as (Hdel & _ & _ & Hget & Hput).
  - apply not_in_ids_Forall. repeat constructor; discriminate.
  - split_and!.
    + exact Hdel.
    + reflexivity.
    + exact Hget.
    + exact Hput.
Defined.

(** ** Create, then Get *)

(** X18: for a non-empty title and a non-empty author, [POST /books] answers 201
    with a book [b] that carries the given title and author and the generated
    id; and when that id is not empty and not yet in the registry,
    [GET /books/:id] with [b]'s id on the resulting registry answers 200 with
    [b], so with exactly the given title and author. *)
Theorem create_then_get
    (r36 : string) (body : gmap string value) (books : list Book) (t a : string) :
  prop "title" body = VStr t → prop "author" body = VStr a →
  t ≠ "" → a ≠ "" →
  ∃ b,
    post_book r36 body books = (json 201 (JsonBook b), books ++ [b])
    ∧ id b = generateUniqueId r36 ∧ title b = VStr t ∧ author b = VStr a
    ∧ (generateUniqueId r36 ≠ "" → generateUniqueId r36 ∉ ids books →
       get_book (id b) (books ++ [b]) = (json 200 (JsonBook b), books ++ [b])).
Proof.
  intros Ht Ha Hne_t Hne_a.
  exists (mkBook (generateUniqueId r36) (VStr t) (VStr a)).
  rewrite post_book_accept; rewrite ?Ht, ?Ha; try by apply truthy_VStr.
  split_and!; try done.
  intros _ Hfresh. by apply get_book_first.
Qed.

Lemma create_then_get_witness :
  ∃ b,
    post_book "0.4fzyo82mv" (book_body (VStr "Dune") (VStr "Herbert")) seed_books
    = (json 201 (JsonBook b), seed_books ++ [b])
    ∧ title b = VStr "Dune" ∧ author b = VStr "Herbert"
    ∧ get_book (id b) (seed_books ++ [b]) = (json 200 (JsonBook b), seed_books ++ [b]).
Proof.
  destruct (create_then_get "0.4fzyo82mv"
              (book_body (VStr "Dune") (VStr "Herbert")) seed_books
              "Dune" "Herbert") as (b & Hpost & Hid & Ht & Ha & Hget).
  - reflexivity.
  - reflexivity.
  - discriminate.
  - discriminate.
  - exists b. split_and!; [exact Hpost | exact Ht | exact Ha |].
    apply Hget; [discriminate|].
    apply not_in_ids_Forall. repeat constructor; discriminate.
Defined.

(** C1, at an input where the code departs from it: [Math.random()] returns
    the same number for two creations.  After "Dune" has been created under
    the id [k3j59x1ab], creating "Emma" answers 201 with a book of that id,
    and [GET /books/k3j59x1ab] on the resulting registry answers with the
    first book, "Dune", not with the book just created. *)
Lemma create_then_get_collision :
  post_book "0.k3j59x1ab" (book_body (VStr "Emma") (VStr "Jane Austen"))
    (run [first_create] seed_books)
  = (json 201 (JsonBook (mkBook "k3j59x1ab" (VStr "Emma") (VStr "Jane Austen"))),
     collision_books)
  ∧ get_book "k3j59x1ab" collision_books
    = (json 200 (JsonBook (mkBook "k3j59x1ab" (VStr "Dune") (VStr "Frank Herbert"))),
       collision_books)
  ∧ VStr "Dune" ≠ VStr "Emma".
Proof. split_and!; [reflexivity | reflexivity | discriminate]. Qed.

(** C8, at an input where the code departs from it: the registry already
    holds a record with the id [k3j59x1ab], and [Math.random()] returns the
    number that gave that id.  [POST /books] answers 201 and appends a sixth
    record at the end, but the id it carries is not new: it is the id of the
    record at position 3. *)
Lemma post_book_repeats_id :
  reachable (run [first_create] seed_books)
  ∧ run [first_create] seed_books !! 3
    = Some (mkBook "k3j59x1ab" (VStr "Dune") (VStr "Frank Herbert"))
  ∧ post_book "0.k3j59x1ab" (book_body (VStr "Emma") (VStr "Jane Austen"))
      (run [first_create] seed_books)
    = (json 201 (JsonBook (mkBook "k3j59x1ab" (VStr "Emma") (VStr "Jane Austen"))),
       run [first_create] seed_books
       ++ [mkBook "k3j59x1ab" (VStr "Emma") (VStr "Jane Austen")])
  ∧ generateUniqueId "0.k3j59x1ab" ∈ ids (run [first_create] seed_books).
Proof.
  split_and!; try reflexivity.
  - by exists [first_create].
  - apply elem_of_ids.
    exists (mkBook "k3j59x1ab" (VStr "Dune") (VStr "Frank Herbert")).
    split; [|done]. apply list_elem_of_In. vm_compute. tauto.
Qed.


(** ** The invariant of the registry *)

Section Invariant.
Implicit Types (req : Request) (reqs : list Request) (books : list Book).

Lemma fields_truthy_strings b :
  fields_truthy b →
  title b ≠ VStr "" ∧ title b ≠ VUndefined
  ∧ author b ≠ VStr "" ∧ author b ≠ VUndefined.
Proof.
  intros [Ht Ha]. apply truthy_not_empty in Ht, Ha. tauto.
Qed.

Lemma seed_books_fields : Forall fields_truthy seed_books.
Proof. repeat constructor. Qed.

Lemma seed_books_NoDup : NoDup (ids seed_books).
Proof. by apply (bool_decide_unpack _). Qed.

Lemma updated_fields body b : fields_truthy b → fields_truthy (updated body b).
Proof.
  intros [Ht Ha]. split; simpl; by apply js_or_preserves_truthy.
Qed.

(** No request can store an empty title or author. *)
Lemma handle_fields req books :
  Forall fields_truthy books → Forall fields_truthy (handle req books).2.
Proof.
  intros Hinv. destruct req as [| i | r36 body | i body | i]; simpl.
  - done.
  - unfold get_book. by destruct (find_book i books).
  - unfold post_book.
    destruct (truthy (prop "title" body)) eqn:Ht; [|done].
    destruct (truthy (prop "author" body)) eqn:Ha; [|done].
    simpl. apply Forall_app. split; [done|]. by apply Forall_singleton.
  - destruct (decide (i ∈ ids books)) as [Hi | Hi].
    + apply list_find_id_is_Some in Hi as (n & old & E).
      rewrite (put_book_found _ _ _ _ _ E). simpl.
      apply Forall_insert; [done|]. apply updated_fields.
      apply list_find_Some in E as (Hn & _ & _).
      rewrite Forall_forall in Hinv. apply Hinv.
      by eapply list_elem_of_lookup_2.
    + by rewrite put_book_missing.
  - rewrite delete_book_store. rewrite !Forall_forall in *.
    intros b [_ Hb]%list_elem_of_filter. by apply Hinv.
Qed.

Lemma put_book_ids i body books : ids (put_book i body books).2 = ids books.
Proof.
  destruct (decide (i ∈ ids books)) as [Hi | Hi].
  - apply list_find_id_is_Some in Hi as (n & old & E).
    rewrite (put_book_found _ _ _ _ _ E). simpl.
    apply list_find_Some in E as (Hn & _ & _).
    unfold ids. rewrite list_fmap_insert, updated_id.
    apply list_insert_id. by rewrite list_lookup_fmap, Hn.
  - by rewrite put_book_missing.
Qed.

(** Ids stay unique as long as the generator does not repeat one. *)
Lemma handle_NoDup req books :
  NoDup (ids books) → fresh_step req books → NoDup (ids (handle req books).2).
Proof.
  intros Hnd Hfresh. destruct req as [| i | r36 body | i body | i]; simpl.
  - done.
  - unfold get_book. by destruct (find_book i books).
  - simpl in Hfresh. revert Hfresh. unfold post_book.
    destruct (truthy (prop "title" body)); [|done].
    destruct (truthy (prop "author" body)); [|done].
    simpl. intros Hfresh. unfold ids in *. rewrite fmap_app. simpl.
    apply NoDup_app. split_and!; [done | | apply NoDup_singleton].
    intros x Hx ->%list_elem_of_singleton. by apply Hfresh.
  - by rewrite put_book_ids.
  - rewrite delete_book_store, ids_filter. by apply NoDup_filter.
Qed.

Lemma run_fields reqs books :
  Forall fields_truthy books → Forall fields_truthy (run reqs books).
Proof.
  revert books. induction reqs as [|req reqs IH]; intros books Hinv; [done|].
  apply IH. by apply handle_fields.
Qed.

Lemma run_NoDup reqs books :
  NoDup (ids books) → fresh_run reqs books → NoDup (ids (run reqs books)).
Proof.
  revert books.
  induction reqs as [|req reqs IH]; intros books Hnd Hfresh; [done|].
  destruct Hfresh as [Hstep Hrest]. apply IH; [|done].
  by apply handle_NoDup.
Qed.
End Invariant.

(** X19: whatever requests are served from the seed registry, the title and
    the author of every record are truthy: never [undefined], [null], [false],
    [0], [NaN] or the empty string, so a title or author that is a string is
    not empty.  (A truthy value that is not a string, such as an empty array,
    can be stored.) *)
Theorem run_fields_truthy (reqs : list Request) :
  ∀ b, b ∈ run reqs seed_books →
    truthy (title b) = true ∧ truthy (author b) = true
    ∧ (∀ s, title b = VStr s → s ≠ "")
    ∧ (∀ s, author b = VStr s → s ≠ "").
Proof.
  pose proof (run_fields reqs seed_books seed_books_fields) as Hf.
  intros b Hb. rewrite Forall_forall in Hf. destruct (Hf b Hb) as [Ht Ha].
  split_and!; [done | done | |].
  - intros s Hs. apply truthy_VStr. by rewrite <- Hs.
  - intros s Hs. apply truthy_VStr. by rewrite <- Hs.
Qed.

Lemma run_fields_truthy_witness :
  truthy (VStr "Dune") = true ∧ truthy (VStr "Herbert") = true
  ∧ (∀ s, VStr "Dune" = VStr s → s ≠ "")
  ∧ (∀ s, VStr "Herbert" = VStr s → s ≠ "").
Proof.
  apply (run_fields_truthy scenario
           (mkBook "4fzyo82mv" (VStr "Dune") (VStr "Herbert"))).
  apply list_elem_of_In. vm_compute. tauto.
Defined.

(** X20: as long as no accepted creation of a run is given an id that the
    registry holds at that moment, the ids of the registry stay unique. *)
Theorem run_unique_ids (reqs : list Request) :
  fresh_run reqs seed_books → NoDup (ids (run reqs seed_books)).
Proof.
  intros Hfresh. by apply run_NoDup; [apply seed_books_NoDup|].
Qed.

Lemma run_unique_ids_witness : NoDup (ids (run scenario seed_books)).
Proof.
  apply (run_unique_ids scenario).
  simpl. split_and!; try exact I.
  intros _ Hin. by apply (bool_decide_pack _) in Hin.
Defined.

(** C3, at an input where the code departs from it: [Math.random()] returns
    the same number for two creations served from the seed registry.  The
    registry reached holds two records with the id [k3j59x1ab], so the ids
    are not unique. *)
Lemma collision_breaks_unique_ids :
  reachable collision_books
  ∧ ids collision_books = ["1"; "2"; "3"; "k3j59x1ab"; "k3j59x1ab"]
  ∧ ¬ NoDup (ids collision_books).
Proof.
  split_and!.
  - by exists [first_create; second_create].
  - reflexivity.
  - intros Hnd. by apply (bool_decide_pack _) in Hnd.
Qed.

(** ** Instances on the seed registry *)


Lemma get_book_spec_witness :
  (∃ b, b ∈ seed_books ∧ id b = "1"
        ∧ (get_book "1" seed_books).1 = json 200 (JsonBook b))
  ∧ (get_book "7" seed_books).1 = json 404 (JsonMessage "Book not found").
Proof.
  destruct (get_book_spec "1" seed_books) as (_ & Hfound & _).
  destruct (get_book_spec "7" seed_books) as (_ & _ & Hmissing & _).
  split.
  - apply Hfound. apply elem_of_ids.
    exists (mkBook "1" (VStr "The Hitchhiker's Guide to the Galaxy")
              (VStr "Douglas Adams")).
    split; [|done]. apply list_elem_of_In. simpl. tauto.
  - apply Hmissing. apply not_in_ids_Forall. repeat constructor; discriminate.
Defined.

Lemma put_book_spec_witness :
  put_book "7" {[ "title" := VStr "P&P Rev." ]} seed_books
  = (json 404 (JsonMessage "Book not found"), seed_books)
  ∧ ∃ n old new,
      seed_books !! n = Some old
      ∧ put_book "2" {[ "title" := VStr "P&P Rev." ]} seed_books
        = (json 200 (JsonBook new), <[n := new]> seed_books)
      ∧ new = mkBook "2" (VStr "P&P Rev.") (author old).
Proof.
  destruct (put_book_spec "7" {[ "title" := VStr "P&P Rev." ]} seed_books)
    as (Hmissing & _).
  destruct (put_book_spec "2" {[ "title" := VStr "P&P Rev." ]} seed_books)
    as (_ & Hfound).
  split.
  - apply Hmissing. apply not_in_ids_Forall. repeat constructor; discriminate.
  - destruct Hfound as (n & old & new & Hn & _ & _ & Hput & _ & _ & _ & _ & _ & Honly).
    + apply elem_of_ids. exists (mkBook "2" (VStr "Pride and Prejudice") (VStr "Jane Austen")).
      split; [|done]. apply list_elem_of_In. simpl. tauto.
    + exists n, old, new. split_and!; [exact Hn | exact Hput |].
      apply (Honly "P&P Rev."); [reflexivity | discriminate | reflexivity].
Defined.

(** [substr(2, 9)] drops the leading [0.] and keeps at most nine characters. *)
Example generateUniqueId_samples :
  generateUniqueId "0.k3j59x1ab2c" = "k3j59x1ab"
  ∧ generateUniqueId "0.4fzyo82mv" = "4fzyo82mv"
  ∧ generateUniqueId "0.1" = "1"
  ∧ generateUniqueId "0" = "".
Proof. by vm_compute. Qed.

(** The scenario of the specification, served request by request. *)
Example scenario_trace :
  (handle (POST_books "0.4fzyo82mv" (book_body (VStr "Dune") (VStr "Herbert")))
     seed_books).1
  = json 201 (JsonBook (mkBook "4fzyo82mv" (VStr "Dune") (VStr "Herbert")))
  ∧ (handle (GET_book "1") seed_books).1
    = json 200 (JsonBook (mkBook "1" (VStr "The Hitchhiker's Guide to the Galaxy")
                            (VStr "Douglas Adams")))
  ∧ (handle (PUT_book "2" {[ "title" := VStr "P&P Rev." ]}) seed_books).1
    = json 200 (JsonBook (mkBook "2" (VStr "P&P Rev.") (VStr "Jane Austen")))
  ∧ (handle (DELETE_book "3") seed_books).1 = mkResponse 204 None
  ∧ (handle (GET_book "3") (handle (DELETE_book "3") seed_books).2).1
    = json 404 (JsonMessage "Book not found")
  ∧ ids (run scenario seed_books) = ["1"; "2"; "4fzyo82mv"].
Proof. by vm_compute. Qed.

(** * Further properties of the handlers *)

(** ** More on [find] *)

Section FindMore.
Implicit Types (i j : string) (b : Book) (books front back : list Book).

Lemma find_book_nil i : find_book i [] = None.
Proof. done. Qed.

Lemma find_book_cons i b books :
  find_book i (b :: books) = if decide (id b = i) then Some b else find_book i books.
Proof.
  unfold find_book. simpl. case_decide; [done|].
  by destruct (list_find (λ x, id x = i) books) as [[n x]|].
Qed.

Lemma find_book_app i front back :
  find_book i (front ++ back)
  = match find_book i front with
    | Some b => Some b
    | None => find_book i back
    end.
Proof.
  induction front as [|x front IH]; [done|].
  rewrite <- app_comm_cons, !find_book_cons. by case_decide.
Qed.

(** A registry that holds [i] splits at the first record with that id. *)
Lemma first_match_split i books :
  i ∈ ids books →
  ∃ front b back, books = front ++ b :: back ∧ id b = i ∧ i ∉ ids front.
Proof.
  induction books as [|x books IH].
  - by intros ?%elem_of_nil.
  - destruct (decide (id x = i)) as [Hx | Hx].
    + intros _. exists [], x, books. split_and!; [done | done |].
      unfold ids. simpl. apply not_elem_of_nil.
    + unfold ids in *. rewrite fmap_cons, elem_of_cons.
      intros [Hi | Hi]; [congruence|].
      destruct (IH Hi) as (front & b & back & -> & Hb & Hfront).
      exists (x :: front), b, back. split_and!; [done | done |].
      rewrite fmap_cons, not_elem_of_cons. split; [congruence | done].
Qed.

Lemma get_book_store i books : (get_book i books).2 = books.
Proof. unfold get_book. by destruct (find_book i books). Qed.

Lemma get_book_response i books :
  (get_book i books).1
  = match find_book i books with
    | Some b => json 200 (JsonBook b)
    | None => not_found
    end.
Proof. unfold get_book. by destruct (find_book i books). Qed.

Lemma js_or_idemp (v old : value) : js_or v (js_or v old) = js_or v old.
Proof. unfold js_or. by destruct (truthy v) eqn:E; rewrite ?E. Qed.

Lemma updated_idemp body b : updated body (updated body b) = updated body b.
Proof.
  unfold updated, assign_author, assign_title. simpl.
  by rewrite !js_or_idemp.
Qed.
End FindMore.

(** ** The id generator *)

Section Substring.
Implicit Types (s x y : string) (n m : nat).

Lemma length_substring n m s :
  String.length (String.substring n m s) = m `min` (String.length s - n).
Proof.
  revert n m. induction s as [|c s IH]; intros [|n] [|m];
    cbn [String.substring String.length]; rewrite ?IH; lia.
Qed.

Lemma substring_app_l n m s x :
  n + m ≤ String.length s →
  String.substring n m (s +:+ x) = String.substring n m s.
Proof.
  revert n m. induction s as [|c s IH]; intros n m H; simpl in *.
  - assert (n = 0 ∧ m = 0) as [-> ->] by lia. by destruct x.
  - destruct n as [|n], m as [|m]; try done.
    + f_equal. apply IH. lia.
    + apply IH. lia.
    + apply IH. lia.
Qed.
End Substring.

(** X1: a generated id has at most nine characters: exactly nine when the
    rendering of the random number has eleven or more, and none at all when
    it has two or fewer (the rendering ["0"] of the number zero). *)
Theorem generateUniqueId_length (r36 : string) :
  String.length (generateUniqueId r36) = 9 `min` (String.length r36 - 2)
  ∧ String.length (generateUniqueId r36) ≤ 9
  ∧ (11 ≤ String.length r36 → String.length (generateUniqueId r36) = 9)
  ∧ (String.length r36 ≤ 2 → generateUniqueId r36 = "").
Proof.
  unfold generateUniqueId.
  pose proof (length_substring 2 9 r36) as Hlen.
  split_and!; try lia.
  intros Hshort.
  assert (String.length (String.substring 2 9 r36) = 0) as Hzero by lia.
  by destruct (String.substring 2 9 r36).
Qed.

Lemma generateUniqueId_length_witness :
  String.length (generateUniqueId "0.k3j59x1ab2c") = 9
  ∧ generateUniqueId "0" = "".
Proof.
  destruct (generateUniqueId_length "0.k3j59x1ab2c") as (_ & _ & Hfull & _).
  destruct (generateUniqueId_length "0") as (_ & _ & _ & Hnone).
  split; [apply Hfull | apply Hnone]; simpl; lia.
Defined.

(** X2: only the nine characters after the two leading ones count: two
    renderings that agree on their first eleven characters give the same id. *)
Theorem generateUniqueId_truncates (s x y : string) :
  String.length s = 11 →
  generateUniqueId (s +:+ x) = generateUniqueId (s +:+ y)
  ∧ generateUniqueId (s +:+ x) = generateUniqueId s.
Proof.
  intros Hs. unfold generateUniqueId.
  rewrite !substring_app_l by lia. done.
Qed.

Lemma generateUniqueId_truncates_witness :
  generateUniqueId ("0.k3j59x1ab" +:+ "2c") = generateUniqueId ("0.k3j59x1ab" +:+ "zz7")
  ∧ generateUniqueId ("0.k3j59x1ab" +:+ "2c") = generateUniqueId "0.k3j59x1ab".
Proof.
  apply (generateUniqueId_truncates "0.k3j59x1ab" "2c" "zz7").
  reflexivity.
Defined.

(** ** Reads, answers and lengths *)

Section Steps.
Implicit Types (req : Request) (reqs : list Request) (books : list Book).

Lemma run_cons req reqs books :
  run (req :: reqs) books = run reqs (handle req books).2.
Proof. done. Qed.

Lemma read_store req books : is_read req = true → (handle req books).2 = books.
Proof.
  destruct req; try done. intros _. apply get_book_store.
Qed.

Lemma run_writes reqs books : run reqs books = run (writes reqs) books.
Proof.
  revert books. induction reqs as [|req reqs IH]; intros books; [done|].
  unfold writes. rewrite filter_cons, run_cons.
  destruct (decide (is_read req = false)) as [Hw | Hr].
  - rewrite run_cons. apply IH.
  - apply not_false_is_true in Hr. rewrite read_store by done. apply IH.
Qed.

(** The answers of the handlers, by case on what the registry holds. *)
Lemma handle_cases req books :
  (∃ b, (handle req books).1 = json 200 (JsonBook b)
        ∧ length (handle req books).2 = length books)
  ∨ ((handle req books).1 = json 200 (JsonBooks books)
     ∧ (handle req books).2 = books)
  ∨ (∃ b, (handle req books).1 = json 201 (JsonBook b)
          ∧ (handle req books).2 = books ++ [b])
  ∨ ((handle req books).1 = mkResponse 204 None
     ∧ length (handle req books).2 < length books)
  ∨ (∃ code message, (handle req books).1 = json code (JsonMessage message)
                     ∧ (code = 400 ∨ code = 404)
                     ∧ (handle req books).2 = books).
Proof.
  destruct req as [| i | r36 body | i body | i]; simpl.
  - right. left. done.
  - unfold get_book. destruct (find_book i books) as [b|].
    + left. by exists b.
    + do 4 right. exists 404, "Book not found". auto.
  - unfold post_book.
    destruct (negb (truthy (prop "title" body))
              || negb (truthy (prop "author" body))).
    + do 4 right. exists 400, "Title and Author are required". auto.
    + do 2 right. left. eauto.
  - destruct (decide (i ∈ ids books)) as [Hi | Hi].
    + apply list_find_id_is_Some in Hi as (n & old & E).
      rewrite (put_book_found _ _ _ _ _ E). simpl.
      left. exists (updated body old). split; [done|]. apply length_insert.
    + rewrite put_book_missing by done.
      do 4 right. exists 404, "Book not found". auto.
  - destruct (decide (i ∈ ids books)) as [Hi | Hi].
    + rewrite delete_book_found by done. simpl.
      do 3 right. left. split; [done|].
      apply elem_of_ids in Hi as (b & Hb & Hi).
      apply (length_filter_lt _ _ b); [done|]. by intros ?.
    + rewrite delete_book_missing by done.
      do 4 right. exists 404, "Book not found". auto.
Qed.
End Steps.

(** X3: the two GET routes never change the registry: a run leaves the
    registry that its other requests alone would leave, and [GET /books]
    after the run answers 200 with exactly that registry, in order. *)
Theorem reads_are_transparent (reqs : list Request) (books : list Book) :
  run reqs books = run (writes reqs) books
  ∧ handle GET_books (run reqs books)
    = (json 200 (JsonBooks (run (writes reqs) books)), run (writes reqs) books).
Proof.
  split; [apply run_writes|].
  simpl. unfold get_books. by rewrite <- run_writes.
Qed.

(** X4: a request answered with an error status (400 or above) leaves the
    registry exactly as it was. *)
Theorem error_leaves_registry (req : Request) (books : list Book) :
  400 ≤ status (handle req books).1 → (handle req books).2 = books.
Proof.
  destruct (handle_cases req books)
    as [(b & -> & _) | [[-> Hs] | [(b & -> & _) | [[-> _] | (c & m & -> & _ & Hs)]]]];
    simpl; intros Hge; (done || lia).
Qed.

Lemma error_leaves_registry_witness :
  (handle (POST_books "0.4fzyo82mv" {[ "title" := VStr "Dune" ]}) seed_books).2
  = seed_books
  ∧ (handle (DELETE_book "7") seed_books).2 = seed_books.
Proof.
  split.
  - apply (error_leaves_registry
             (POST_books "0.4fzyo82mv" {[ "title" := VStr "Dune" ]}) seed_books).
    vm_compute. lia.
  - apply (error_leaves_registry (DELETE_book "7") seed_books).
    vm_compute. lia.
Defined.

(** X5: on a request whose body was parsed, every answer carries one of the
    statuses 200, 201, 204, 400, 404, and its body is empty exactly when the
    status is 204. *)
Theorem handle_statuses (req : Request) (books : list Book) :
  status (handle req books).1 ∈ app_statuses
  ∧ (payload (handle req books).1 = None ↔ status (handle req books).1 = 204).
Proof.
  unfold app_statuses.
  destruct (handle_cases req books)
    as [(b & Hr & _) | [[Hr _] | [(b & Hr & _) | [[Hr _] | (c & m & Hr & [-> | ->] & _)]]]];
    rewrite Hr; simpl;
    (split; [apply list_elem_of_In; simpl; tauto | split; intros; done]).
Qed.

(** X6: the status tells how the length of the registry moved: one more
    record after 201, fewer after 204, and the same number after any other
    answer. *)
Theorem handle_length (req : Request) (books : list Book) :
  (status (handle req books).1 = 201 →
   length (handle req books).2 = S (length books))
  ∧ (status (handle req books).1 = 204 →
     length (handle req books).2 < length books)
  ∧ (status (handle req books).1 ≠ 201 → status (handle req books).1 ≠ 204 →
     length (handle req books).2 = length books).
Proof.
  destruct (handle_cases req books)
    as [(b & -> & Hl) | [[-> Hs] | [(b & -> & Hs) | [[-> Hl] | (c & m & -> & Hc & Hs)]]]];
    simpl; rewrite ?Hs, ?length_app; simpl;
    (split_and!; intros; try done; try lia).
Qed.

Lemma handle_length_witness :
  length (handle (POST_books "0.4fzyo82mv"
                    (book_body (VStr "Dune") (VStr "Herbert"))) seed_books).2 = 4
  ∧ length (handle (DELETE_book "3") seed_books).2 < 3
  ∧ length (handle (PUT_book "2" {[ "title" := VStr "P&P Rev." ]}) seed_books).2 = 3.
Proof.
  destruct (handle_length (POST_books "0.4fzyo82mv"
              (book_body (VStr "Dune") (VStr "Herbert"))) seed_books) as (Hc & _).
  destruct (handle_length (DELETE_book "3") seed_books) as (_ & Hd & _).
  destruct (handle_length (PUT_book "2" {[ "title" := VStr "P&P Rev." ]}) seed_books)
    as (_ & _ & Hu).
  split_and!.
  - apply Hc. reflexivity.
  - apply Hd. reflexivity.
  - apply Hu; discriminate.
Defined.

(** ** Update, again *)

Section UpdateMore.
Implicit Types (i j : string) (body : gmap string value) (books : list Book).

(** [PUT] on a registry that holds the id, read at the first record with it. *)
Lemma put_book_split i body books :
  i ∈ ids books →
  ∃ front old back,
    books = front ++ old :: back ∧ id old = i ∧ (i ∉ ids front)
    ∧ put_book i body books
      = (json 200 (JsonBook (updated body old)), front ++ updated body old :: back).
Proof.
  intros (front & old & back & -> & <- & Hfront)%first_match_split.
  exists front, old, back. split_and!; try done.
  by apply put_book_first.
Qed.

Lemma find_book_split i front (b : Book) back :
  id b = i → i ∉ ids front → find_book i (front ++ b :: back) = Some b.
Proof.
  intros Hb Hfront. rewrite find_book_app.
  rewrite (proj2 (find_book_None _ _) Hfront), find_book_cons.
  by rewrite decide_True.
Qed.

Lemma find_book_replace j front (b b' : Book) back :
  id b' = id b →
  id b ≠ j →
  find_book j (front ++ b' :: back) = find_book j (front ++ b :: back).
Proof.
  intros Hid Hj. rewrite !find_book_app, !find_book_cons, Hid.
  by rewrite !decide_False by done.
Qed.
End UpdateMore.

(** X7: [PUT /books/:id] is idempotent: sending the same update a second time
    gives the same answer and leaves the registry the first one left. *)
Theorem put_book_idempotent
    (i : string) (body : gmap string value) (books : list Book) :
  put_book i body (put_book i body books).2 = put_book i body books.
Proof.
  destruct (decide (i ∈ ids books)) as [Hi | Hi].
  - destruct (put_book_split i body books Hi)
      as (front & old & back & -> & <- & Hfront & ->).
    simpl. etrans.
    { exact (put_book_first body front (updated body old) back Hfront). }
    by rewrite updated_idemp.
  - rewrite !put_book_missing; try done. by rewrite put_book_missing.
Qed.

(** X8: after a [PUT /books/:id] that found the id, [GET /books/:id] answers
    with the very record the update answered with, on the same registry. *)
Theorem put_then_get (i : string) (body : gmap string value) (books : list Book) :
  i ∈ ids books →
  get_book i (put_book i body books).2 = put_book i body books.
Proof.
  intros Hi.
  destruct (put_book_split i body books Hi)
    as (front & old & back & -> & <- & Hfront & ->).
  simpl. unfold get_book. by rewrite find_book_split.
Qed.

Lemma put_then_get_witness :
  get_book "2" (put_book "2" {[ "title" := VStr "P&P Rev." ]} seed_books).2
  = put_book "2" {[ "title" := VStr "P&P Rev." ]} seed_books.
Proof.
  apply (put_then_get "2" {[ "title" := VStr "P&P Rev." ]} seed_books).
  apply elem_of_ids.
  exists (mkBook "2" (VStr "Pride and Prejudice") (VStr "Jane Austen")).
  split; [|done]. apply list_elem_of_In. simpl. tauto.
Defined.

(** X9: [PUT /books/:id] does not change what [GET] answers for any other
    id, whether that id is stored or not. *)
Theorem put_keeps_other_ids
    (i j : string) (body : gmap string value) (books : list Book) :
  j ≠ i →
  (get_book j (put_book i body books).2).1 = (get_book j books).1.
Proof.
  intros Hj.
  destruct (decide (i ∈ ids books)) as [Hi | Hi].
  - destruct (put_book_split i body books Hi)
      as (front & old & back & -> & <- & Hfront & ->).
    simpl. rewrite !get_book_response.
    by rewrite (find_book_replace j front old (updated body old) back).
  - by rewrite put_book_missing.
Qed.

Lemma put_keeps_other_ids_witness :
  (get_book "1" (put_book "2" {[ "title" := VStr "P&P Rev." ]} seed_books).2).1
  = (get_book "1" seed_books).1.
Proof.
  apply (put_keeps_other_ids "2" "1" {[ "title" := VStr "P&P Rev." ]} seed_books).
  discriminate.
Defined.

(** X10: [PUT /books/:id] replaces a field exactly when the value supplied is
    truthy, string or not: [null], [false], [0], [NaN], [""] and a missing key
    keep the stored value, and any other value is stored as it is. *)
Theorem put_book_truthiness
    (i : string) (body : gmap string value) (books : list Book) :
  i ∈ ids books →
  ∃ old new,
    find_book i books = Some old
    ∧ (put_book i body books).1 = json 200 (JsonBook new)
    ∧ find_book i (put_book i body books).2 = Some new
    ∧ id new = id old
    ∧ title new
      = (if truthy (prop "title" body) then prop "title" body else title old)
    ∧ author new
      = (if truthy (prop "author" body) then prop "author" body else author old).
Proof.
  intros Hi.
  destruct (put_book_split i body books Hi)
    as (front & old & back & -> & <- & Hfront & ->).
  exists old, (updated body old). simpl.
  rewrite !find_book_split by done. done.
Qed.

Lemma put_book_truthiness_witness :
  ∃ new,
    (put_book "3" {[ "title" := VNum 1984; "author" := VNull ]} seed_books).1
    = json 200 (JsonBook new)
    ∧ title new = VNum 1984 ∧ author new = VStr "George Orwell".
Proof.
  destruct (put_book_truthiness "3"
              {[ "title" := VNum 1984; "author" := VNull ]} seed_books)
    as (old & new & Hold & Hput & _ & _ & Ht & Ha).
  - apply elem_of_ids. exists (mkBook "3" (VStr "1984") (VStr "George Orwell")).
    split; [|done]. apply list_elem_of_In. simpl. tauto.
  - exists new. split_and!; [exact Hput | exact Ht |].
    rewrite Ha. vm_compute in Hold. by injection Hold as <-.
Defined.

(** ** Delete and Create, again *)

Section DeleteMore.
Implicit Types (i j : string) (books : list Book).

Lemma find_book_filter_ne i j books :
  j ≠ i → find_book j (filter (λ b, id b ≠ i) books) = find_book j books.
Proof.
  intros Hj. induction books as [|b books IH]; [done|].
  rewrite filter_cons, find_book_cons.
  destruct (decide (id b ≠ i)) as [Hb | Hb].
  - rewrite find_book_cons. by rewrite IH.
  - apply dec_stable in Hb. rewrite decide_False by congruence. done.
Qed.

Lemma elem_of_ids_snoc i books (b : Book) : id b = i → i ∈ ids (books ++ [b]).
Proof.
  intros Hb. apply elem_of_ids. exists b. split; [|done].
  apply elem_of_app. right. by apply list_elem_of_singleton.
Qed.
End DeleteMore.

(** X11: a second [DELETE /books/:id] for the same id answers 404 and changes
    nothing, whatever the first one answered. *)
Theorem delete_book_twice (i : string) (books : list Book) :
  delete_book i (delete_book i books).2
  = (json 404 (JsonMessage "Book not found"), (delete_book i books).2).
Proof.
  rewrite delete_book_store.
  apply delete_book_missing, ids_filter_without.
Qed.

(** X12: [DELETE /books/:id] keeps the records with other ids, in their order,
    and does not change what [GET] answers for any other id. *)
Theorem delete_keeps_other_ids (i j : string) (books : list Book) :
  j ≠ i →
  (get_book j (delete_book i books).2).1 = (get_book j books).1
  ∧ (delete_book i books).2 `sublist_of` books
  ∧ (∀ b, b ∈ books → id b ≠ i → b ∈ (delete_book i books).2).
Proof.
  intros Hj. rewrite delete_book_store. split_and!.
  - by rewrite !get_book_response, find_book_filter_ne.
  - apply sublist_filter.
  - intros b Hb Hne. by apply list_elem_of_filter.
Qed.

Lemma delete_keeps_other_ids_witness :
  (get_book "1" (delete_book "3" seed_books).2).1 = (get_book "1" seed_books).1
  ∧ (delete_book "3" seed_books).2 `sublist_of` seed_books.
Proof.
  destruct (delete_keeps_other_ids "3" "1" seed_books) as (Hget & Hsub & _).
  - discriminate.
  - split; [exact Hget | exact Hsub].
Defined.

(** X13: [POST /books] accepts a body exactly when its title and its author
    are both truthy, so [null], [false], [0] and [""] are refused like a
    missing key, and a truthy value that is not a string (a number, an array,
    an object) is stored as it is. *)
Theorem post_book_truthiness
    (r36 : string) (body : gmap string value) (books : list Book) :
  (status (post_book r36 body books).1 = 201
   ↔ truthy (prop "title" body) = true ∧ truthy (prop "author" body) = true)
  ∧ (status (post_book r36 body books).1 = 400
     ↔ truthy (prop "title" body) = false ∨ truthy (prop "author" body) = false)
  ∧ (status (post_book r36 body books).1 = 201 →
     (post_book r36 body books).2
     = books ++ [mkBook (generateUniqueId r36)
                   (prop "title" body) (prop "author" body)]).
Proof.
  unfold post_book.
  destruct (truthy (prop "title" body)), (truthy (prop "author" body)); simpl;
    (split_and!; [split; [done || by intros [] | done || by intros []]
                 | split; [auto || done | by intros [|]]
                 | done]).
Qed.

Lemma post_book_truthiness_witness :
  (post_book "0.4fzyo82mv" {[ "title" := VNum 1984; "author" := VArr [] ]}
     seed_books).2
  = seed_books ++ [mkBook "4fzyo82mv" (VNum 1984) (VArr [])].
Proof.
  destruct (post_book_truthiness "0.4fzyo82mv"
              {[ "title" := VNum 1984; "author" := VArr [] ]} seed_books)
    as (_ & _ & Hstore).
  apply Hstore. reflexivity.
Defined.

(** X14: [POST /books] does not change what [GET] answers for an id that is
    stored already, nor for any id other than the generated one. *)
Theorem post_keeps_other_ids
    (r36 j : string) (body : gmap string value) (books : list Book) :
  j ∈ ids books ∨ j ≠ generateUniqueId r36 →
  (get_book j (post_book r36 body books).2).1 = (get_book j books).1.
Proof.
  intros Hj. rewrite !get_book_response. unfold post_book.
  destruct (negb (truthy (prop "title" body))
            || negb (truthy (prop "author" body))); [done|].
  simpl. rewrite find_book_app.
  destruct (find_book j books) as [b|] eqn:E; [done|].
  apply find_book_None in E. destruct Hj as [Hj | Hj]; [done|].
  rewrite find_book_cons. simpl. by rewrite decide_False.
Qed.

Lemma post_keeps_other_ids_witness :
  (get_book "1" (post_book "0.1" (book_body (VStr "Dune") (VStr "Herbert"))
                   seed_books).2).1
  = (get_book "1" seed_books).1.
Proof.
  apply (post_keeps_other_ids "0.1" "1"
           (book_body (VStr "Dune") (VStr "Herbert")) seed_books).
  left. apply elem_of_ids.
  exists (mkBook "1" (VStr "The Hitchhiker's Guide to the Galaxy")
            (VStr "Douglas Adams")).
  split; [|done]. apply list_elem_of_In. simpl. tauto.
Defined.

(** X15: deleting the id of a book just created undoes the creation,
    provided the generated id is not empty (so that [DELETE /books/:id] can
    carry it) and was not in the registry before: the answer is 204 and the
    registry is the one before the creation. *)
Theorem create_then_delete
    (r36 : string) (body : gmap string value) (books : list Book) :
  status (post_book r36 body books).1 = 201 →
  generateUniqueId r36 ≠ "" →
  generateUniqueId r36 ∉ ids books →
  delete_book (generateUniqueId r36) (post_book r36 body books).2
  = (mkResponse 204 None, books).
Proof.
  intros [Ht Ha]%post_book_status _ Hfresh.
  rewrite post_book_accept by done. simpl.
  rewrite delete_book_found by by apply elem_of_ids_snoc.
  f_equal. rewrite filter_app, filter_keeps_all by done.
  rewrite filter_cons_False by (by intros ?). simpl. apply app_nil_r.
Qed.

Lemma create_then_delete_witness :
  delete_book "4fzyo82mv"
    (post_book "0.4fzyo82mv" (book_body (VStr "Dune") (VStr "Herbert")) seed_books).2
  = (mkResponse 204 None, seed_books).
Proof.
  apply (create_then_delete "0.4fzyo82mv"
           (book_body (VStr "Dune") (VStr "Herbert")) seed_books).
  - reflexivity.
  - discriminate.
  - apply not_in_ids_Forall. repeat constructor; discriminate.
Defined.

(** ** The ids of a run *)

Section IdLength.
Implicit Types (req : Request) (reqs : list Request) (books : list Book).

Lemma handle_id_length req books :
  Forall (λ b, String.length (id b) ≤ 9) books →
  Forall (λ b, String.length (id b) ≤ 9) (handle req books).2.
Proof.
  intros Hinv. destruct req as [| i | r36 body | i body | i]; simpl.
  - done.
  - by rewrite get_book_store.
  - unfold post_book.
    destruct (negb (truthy (prop "title" body))
              || negb (truthy (prop "author" body))); [done|].
    simpl. apply Forall_app. split; [done|]. apply Forall_singleton. simpl.
    unfold generateUniqueId. rewrite length_substring. lia.
  - destruct (decide (i ∈ ids books)) as [Hi | Hi].
    + apply list_find_id_is_Some in Hi as (n & old & E).
      rewrite (put_book_found _ _ _ _ _ E). simpl.
      apply Forall_insert; [done|]. rewrite updated_id.
      apply list_find_Some in E as (Hn & _ & _).
      rewrite Forall_forall in Hinv. apply Hinv.
      by eapply list_elem_of_lookup_2.
    + by rewrite put_book_missing.
  - rewrite delete_book_store. rewrite !Forall_forall in *.
    intros b [_ Hb]%list_elem_of_filter. by apply Hinv.
Qed.
End IdLength.

(** X16: whatever requests are served from the seed registry, every id stored
    has at most nine characters. *)
Theorem run_id_length (reqs : list Request) :
  Forall (λ b, String.length (id b) ≤ 9) (run reqs seed_books).
Proof.
  assert (∀ books, Forall (λ b, String.length (id b) ≤ 9) books →
                   Forall (λ b, String.length (id b) ≤ 9) (run reqs books)) as Hrun.
  { induction reqs as [|req reqs IH]; intros books Hinv; [done|].
    rewrite run_cons. by apply IH, handle_id_length. }
  apply Hrun. repeat constructor; simpl; lia.
Qed.

(** ** Deletions of different ids *)

Lemma ids_filter_other (i j : string) (books : list Book) :
  j ≠ i → i ∈ ids (filter (λ b, id b ≠ j) books) ↔ i ∈ ids books.
Proof.
  intros Hj. rewrite ids_filter, list_elem_of_filter. split; [by intros [_ ?]|].
  intros Hi. split; [congruence | done].
Qed.

(** X17: deletions of two different ids do not interfere: the answer to
    [DELETE] of one id is the same before and after the other id was
    deleted, and both orders leave the same registry. *)
Theorem delete_book_independent (i j : string) (books : list Book) :
  j ≠ i →
  (delete_book i (delete_book j books).2).1 = (delete_book i books).1
  ∧ (delete_book i (delete_book j books).2).2
    = (delete_book j (delete_book i books).2).2.
Proof.
  intros Hj. rewrite !delete_book_store. split.
  - destruct (decide (i ∈ ids books)) as [Hi | Hi].
    + rewrite !delete_book_found; [done | done |].
      by apply ids_filter_other.
    + rewrite !delete_book_missing; [done | done |].
      by rewrite ids_filter_other.
  - rewrite !list_filter_filter. apply list_filter_iff. intros b. tauto.
Qed.

Lemma delete_book_independent_witness :
  (delete_book "1" (delete_book "3" seed_books).2).1 = (delete_book "1" seed_books).1
  ∧ (delete_book "1" (delete_book "3" seed_books).2).2
    = (delete_book "3" (delete_book "1" seed_books).2).2.
Proof.
  apply (delete_book_independent "1" "3" seed_books).
  discriminate.
Defined.
